(** * Module prefetch handlers ($mmPrefetchFactory)

    A shallow embedding of www/core/components/course/services/prefetchfactory.js:
    the template object [modulePrefetchHandler], the factory
    [createPrefetchHandler] and the nineteen functions of the template, over
    the injected services $mmSite, $mmFilepool and $mmUtil. *)

From Stdlib Require Import ZArith.
From stdpp Require Import base option list strings relations.

Local Open Scope Z_scope.

(** ** Data returned by the web services *)

(** An entry of [module.contents], or an intro file. *)
Record File := mkFile {
  type : string;
  fileurl : string;
  timemodified : Z
}.

(** The module object returned by WS. [description] is [None] when the
    property is undefined. *)
Record WSModule := mkModule {
  id : Z;
  contents : list File;
  description : option string
}.

(** The instance of a module (book, assign, ...): [introfiles] and [intro] are
    [None] when the property is undefined. *)
Record Instance := mkInstance {
  introfiles : option (list File);
  intro : option string
}.

(** The object resolved by getRevisionAndTimemodified. *)
Record Data := mkData {
  timemod : Z;
  revision : Z
}.

(** JavaScript truthiness of a value that is a string or undefined: the
    string when the value is truthy. Undefined and the empty string are
    falsy. *)
Definition truthy_string (s : option string) : option string :=
  match s with
  | Some EmptyString => None
  | Some s => Some s
  | None => None
  end.

(** ** Promises

    A promise is modelled by the way it settles. *)
Inductive promise (A : Type) :=
  | Resolved (a : A)
  | Rejected (reason : string).
Arguments Resolved {A} a.
Arguments Rejected {A} reason.

(** A value a function returns that is either plain or a promise of one. *)
Inductive maybe_promise (A : Type) :=
  | Plain (a : A)
  | Promised (p : promise A).
Arguments Plain {A} a.
Arguments Promised {A} p.

(** $q.when: wraps a plain value, adopts a promise. *)
Definition q_when {A} (v : maybe_promise A) : promise A :=
  match v with
  | Plain a => Resolved a
  | Promised p => p
  end.

(** promise.then(f), for a callback returning a promise. *)
Definition promise_then {A B} (p : promise A) (f : A → promise B) : promise B :=
  match p with
  | Resolved a => f a
  | Rejected reason => Rejected reason
  end.

(** promise.catch(f). *)
Definition promise_catch {A} (p : promise A) (f : string → promise A) : promise A :=
  match p with
  | Resolved a => Resolved a
  | Rejected reason => f reason
  end.

(** $q.all: resolved with the array of the values when every promise is
    resolved, rejected when one is. The promises are given as they settle, with
    no order in time: the reason kept is that of the first rejected promise of
    the array. *)
Fixpoint q_all {A} (promises : list (promise A)) : promise (list A) :=
  match promises with
  | [] => Resolved []
  | p :: promises =>
      promise_then p (λ a,
        promise_then (q_all promises) (λ l, Resolved (a :: l)))
  end.

(** *** Promises whose callbacks change a shared variable

    Where the callbacks of several promises write to one variable of the
    enclosing function, each promise is modelled by the change its callbacks
    have made to the variable when it is resolved. [settles promises s r]:
    starting with the variable at [s], the promises settle one at a time in
    some order, and [$q.all(promises).then(function() { return s; })] settles
    as [r]: resolved with the variable once every promise is resolved,
    rejected as soon as one is. *)
Inductive settles {S : Type} : list (promise (S → S)) → S → promise S → Prop :=
  | settles_nil s :
      settles [] s (Resolved s)
  | settles_resolved before change after s r :
      settles (before ++ after) (change s) r →
      settles (before ++ Resolved change :: after) s r
  | settles_rejected before reason after s :
      settles (before ++ Rejected reason :: after) s (Rejected reason).

(** The promises settling in the order of the array. *)
Fixpoint settle_in_order {S : Type} (promises : list (promise (S → S))) (s : S) : promise S :=
  match promises with
  | [] => Resolved s
  | Resolved change :: promises => settle_in_order promises (change s)
  | Rejected reason :: _ => Rejected reason
  end.

(** array.push(x), as a change of the array. *)
Definition push {A} (x : A) (array : list A) : list A := array ++ [x].

(** ** The injected services *)

(** $mmSite. *)
Record Site := mkSite {
  getId : string;
  canDownloadFiles : bool
}.

(** $mmUtil. *)
Record Util := mkUtil {
  extractDownloadableFilesFromHtmlAsFakeFileObjects : string → list File;
  sumFileSizes : list File → Z
}.

(** The calls of $mmFilepool that change the pool or its queue, with their
    arguments in the order of the source. *)
Inductive call :=
  | addToQueueByUrl (siteId url component : string) (itemId timemodified : Z)
  | downloadUrl (siteId url : string) (ignoreStale : bool) (component : string)
      (itemId timemodified : Z)
  | downloadPackage (siteId : string) (files : list File) (component : string)
      (itemId revision timemod : Z) (dirPath : option string)
  | prefetchPackage (siteId : string) (files : list File) (component : string)
      (itemId revision timemod : Z) (dirPath : option string)
  | invalidateFilesByComponent (siteId component : string) (itemId : Z)
  | removeFilesByComponent (siteId component : string) (itemId : Z).

(** $mmFilepool: how each call settles, and the queries. *)
Record Filepool := mkFilepool {
  settle : call → promise unit;
  getFilesSizeByComponent : string → string → Z → promise Z;
  getTimemodifiedFromFileList : list File → Z;
  getRevisionFromFileList : list File → Z;
  isFileDownloadingByUrl : string → string → promise unit;
  getFileEventNameByUrl : string → string → promise string
}.

(** A function that calls into the pool: the calls it issued, in order, and
    the promise it returns. *)
Definition task (A : Type) : Type := list call * promise A.

(** promise.then(f), for a callback that calls into the pool: it runs, and
    issues its calls, only when the promise is resolved. *)
Definition promise_then_task {A B} (p : promise A) (f : A → task B) : task B :=
  match p with
  | Resolved a => f a
  | Rejected reason => ([], Rejected reason)
  end.

(** ** Handler objects

    The properties of a handler are [component] and the nineteen functions
    below. *)
Inductive method :=
  | m_download
  | m_downloadOrPrefetch
  | m_getContentDownloadableFiles
  | m_getDownloadSize
  | m_getDownloadedSize
  | m_getDownloadingFilesEventNames
  | m_getFileEventNames
  | m_getFiles
  | m_getIntroFiles
  | m_getIntroFilesFromInstance
  | m_getRevision
  | m_getRevisionAndTimemodified
  | m_getTimemodified
  | m_invalidateContent
  | m_isDownloadable
  | m_isEnabled
  | m_isFileDownloadable
  | m_prefetchContent
  | m_removeFiles.

Global Instance method_eq_dec : EqDecision method.
Proof. solve_decision. Defined.

(** The type of each function once its receiver is fixed. *)
Definition signature (m : method) : Type :=
  match m with
  | m_download => WSModule → Z → task (list unit)
  | m_downloadOrPrefetch => WSModule → Z → bool → option string → task (list unit)
  | m_getContentDownloadableFiles => WSModule → list File
  | m_getDownloadSize => WSModule → Z → promise Z
  | m_getDownloadedSize => WSModule → Z → promise Z
  | m_getDownloadingFilesEventNames => WSModule → promise (list string)
  | m_getFileEventNames => WSModule → promise (list string)
  | m_getFiles => WSModule → Z → promise (list File)
  | m_getIntroFiles => WSModule → Z → promise (list File)
  | m_getIntroFilesFromInstance => WSModule → option Instance → maybe_promise (list File)
  | m_getRevision => WSModule → Z → promise Z
  | m_getRevisionAndTimemodified => WSModule → Z → option (list File) → promise Data
  | m_getTimemodified => WSModule → Z → promise Z
  | m_invalidateContent => Z → task unit
  | m_isDownloadable => WSModule → Z → promise bool
  | m_isEnabled => bool
  | m_isFileDownloadable => File → bool
  | m_prefetchContent => WSModule → Z → bool → task (list unit)
  | m_removeFiles => WSModule → Z → task unit
  end.

(** What a function property holds: the function the template's body assigned
    to it, which runs with the object it is called on as [this], or a function
    a caller assigned later, given as its behaviour on that object. *)
Inductive function (m : method) :=
  | Source
  | Closure (f : signature m).
Arguments Source {m}.
Arguments Closure {m} f.

(** The own properties of an object: [None] for a property it does not have. *)
Record properties := mkProperties {
  own_component : option string;
  own_method : ∀ m : method, option (function m)
}.

Definition no_properties : properties :=
  {| own_component := None; own_method := λ _, None |}.

(** An object is the template, on which the body of the source ran
    ([this.component = 'core_res'] and the nineteen assignments), or an object
    with own properties and a prototype. *)
Inductive object :=
  | modulePrefetchHandler
  | Derived (own : properties) (proto : object).

(** Object.create(proto). *)
Definition Object_create (proto : object) : object := Derived no_properties proto.

(** Reading [o.component] through the prototype chain. *)
Fixpoint component (o : object) : string :=
  match o with
  | modulePrefetchHandler => "core_res"
  | Derived own proto =>
      match own_component own with
      | Some c => c
      | None => component proto
      end
  end.

(** Reading a function property through the prototype chain. *)
Fixpoint get (o : object) (m : method) : function m :=
  match o with
  | modulePrefetchHandler => Source
  | Derived own proto =>
      match own_method own m with
      | Some f => f
      | None => get proto m
      end
  end.

(** The own properties of [o] and its prototype, for an assignment. The
    template's own properties are fixed above: an assignment to a property of
    the template itself is kept in a layer over it. *)
Definition own_properties (o : object) : properties * object :=
  match o with
  | modulePrefetchHandler => (no_properties, modulePrefetchHandler)
  | Derived own proto => (own, proto)
  end.

(** [o.component = c]. *)
Definition set_component (o : object) (c : string) : object :=
  let '(own, proto) := own_properties o in
  Derived {| own_component := Some c; own_method := own_method own |} proto.

(** [o.m = f]. *)
Definition set_method (o : object) (m : method) (f : function m) : object :=
  let '(own, proto) := own_properties o in
  Derived {| own_component := own_component own;
             own_method := λ m',
               match decide (m = m') with
               | left e => Some (eq_rect m function f m' e)
               | right _ => own_method own m'
               end |} proto.

(** ** The functions of the template

    Each takes its receiver [this] first. A call [this.f(...)] in the source
    goes through the property [f] of the receiver ([call_f] below), so that a
    function assigned by a caller replaces the template's. *)
Section ModulePrefetchHandler.

Variable mmSite : Site.
Variable mmFilepool : Filepool.
Variable mmUtil : Util.

(** A call of the pool: it is issued, and settles as the pool decides. *)
Definition issue (c : call) : task unit := ([c], settle mmFilepool c).

(** Check if a file is downloadable. *)
Definition isFileDownloadable (this : object) (file : File) : bool :=
  bool_decide (type file = "file").

(** The call [this.isFileDownloadable(...)]. *)
Definition call_isFileDownloadable (this : object) : File → bool :=
  match get this m_isFileDownloadable with
  | Source => isFileDownloadable this
  | Closure f => f
  end.

(** Returns a list of content files that can be downloaded. [files] is the
    array the loop pushes to. *)
Definition getContentDownloadableFiles (this : object) (module : WSModule) : list File :=
  let that := this in
  foldl (λ files content,
           if call_isFileDownloadable that content then files ++ [content] else files)
        [] (contents module).

(** The call [this.getContentDownloadableFiles(...)]. *)
Definition call_getContentDownloadableFiles (this : object) : WSModule → list File :=
  match get this m_getContentDownloadableFiles with
  | Source => getContentDownloadableFiles this
  | Closure f => f
  end.

(** Returns module intro files from instance. *)
Definition getIntroFilesFromInstance (this : object) (module : WSModule)
    (instance : option Instance) : maybe_promise (list File) :=
  let from_module :=
    match truthy_string (description module) with
    | Some html =>
        Promised (q_when (Plain (extractDownloadableFilesFromHtmlAsFakeFileObjects mmUtil html)))
    | None => Plain []
    end in
  match instance with
  | Some instance =>
      match introfiles instance with
      | Some files => Plain files
      | None =>
          match truthy_string (intro instance) with
          | Some html => Plain (extractDownloadableFilesFromHtmlAsFakeFileObjects mmUtil html)
          | None => from_module
          end
      end
  | None => from_module
  end.

(** The call [this.getIntroFilesFromInstance(...)]. *)
Definition call_getIntroFilesFromInstance (this : object)
    : WSModule → option Instance → maybe_promise (list File) :=
  match get this m_getIntroFilesFromInstance with
  | Source => getIntroFilesFromInstance this
  | Closure f => f
  end.

(** Returns module intro files. *)
Definition getIntroFiles (this : object) (module : WSModule) (courseId : Z)
    : promise (list File) :=
  q_when (call_getIntroFilesFromInstance this module None).

(** The call [this.getIntroFiles(...)]. *)
Definition call_getIntroFiles (this : object) : WSModule → Z → promise (list File) :=
  match get this m_getIntroFiles with
  | Source => getIntroFiles this
  | Closure f => f
  end.

(** Returns module revision and timemodified. An array is truthy, also the
    empty one: the intro files are calculated only when [introFiles] is
    undefined. *)
Definition getRevisionAndTimemodified (this : object) (module : WSModule) (courseId : Z)
    (introFiles : option (list File)) : promise Data :=
  let promise :=
    match introFiles with
    | Some introFiles => q_when (Plain introFiles)
    | None => call_getIntroFiles this module courseId
    end in
  promise_then promise (λ files,
    let files := files ++ contents module in
    Resolved {| timemod := getTimemodifiedFromFileList mmFilepool files;
                revision := getRevisionFromFileList mmFilepool files |}).

(** The call [this.getRevisionAndTimemodified(...)]. *)
Definition call_getRevisionAndTimemodified (this : object)
    : WSModule → Z → option (list File) → promise Data :=
  match get this m_getRevisionAndTimemodified with
  | Source => getRevisionAndTimemodified this
  | Closure f => f
  end.

(** Get the list of downloadable files. *)
Definition getFiles (this : object) (module : WSModule) (courseId : Z)
    : promise (list File) :=
  let that := this in
  promise_then (call_getIntroFiles that module courseId) (λ files,
    Resolved (files ++ call_getContentDownloadableFiles that module)).

(** The call [this.getFiles(...)]. *)
Definition call_getFiles (this : object) : WSModule → Z → promise (list File) :=
  match get this m_getFiles with
  | Source => getFiles this
  | Closure f => f
  end.

(** $q.all over the promises of the calls pushed to [promises]: the calls
    are issued when they are pushed. *)
Definition q_all_issued (promises : list call) : task (list unit) :=
  (promises, q_all (settle mmFilepool <$> promises)).

(** Download or prefetch the content. *)
Definition downloadOrPrefetch (this : object) (module : WSModule) (courseId : Z)
    (prefetch : bool) (dirPath : option string) : task (list unit) :=
  let siteId := getId mmSite in
  let that := this in
  promise_then_task (call_getIntroFiles that module courseId) (λ introFiles,
    promise_then_task
      (call_getRevisionAndTimemodified that module courseId (Some introFiles)) (λ data,
        let downloadFn := if prefetch then prefetchPackage else downloadPackage in
        let contentFiles := call_getContentDownloadableFiles that module in
        let promises :=
          match truthy_string dirPath with
          | Some _ =>
              foldl (λ promises file,
                       if prefetch then
                         promises ++ [addToQueueByUrl siteId (fileurl file)
                                        (component that) (id module) (timemodified file)]
                       else
                         promises ++ [downloadUrl siteId (fileurl file) false
                                        (component that) (id module) (timemodified file)])
                    [] introFiles
              ++ [downloadFn siteId contentFiles (component that)
                    (id module) (revision data) (timemod data) dirPath]
          | None =>
              let files := introFiles ++ contentFiles in
              [downloadFn siteId files (component that) (id module)
                 (revision data) (timemod data) None]
          end in
        q_all_issued promises)).

(** The call [this.downloadOrPrefetch(...)]. *)
Definition call_downloadOrPrefetch (this : object)
    : WSModule → Z → bool → option string → task (list unit) :=
  match get this m_downloadOrPrefetch with
  | Source => downloadOrPrefetch this
  | Closure f => f
  end.

(** Download the module. *)
Definition download (this : object) (module : WSModule) (courseId : Z) : task (list unit) :=
  call_downloadOrPrefetch this module courseId false None.

(** Prefetch the module. *)
Definition prefetchContent (this : object) (module : WSModule) (courseId : Z)
    (single : bool) : task (list unit) :=
  call_downloadOrPrefetch this module courseId true None.

(** Get the download size of a module. *)
Definition getDownloadSize (this : object) (module : WSModule) (courseId : Z) : promise Z :=
  promise_then (call_getFiles this module courseId) (λ files,
    Resolved (sumFileSizes mmUtil files)).

(** Get the downloaded size of a module. *)
Definition getDownloadedSize (this : object) (module : WSModule) (courseId : Z) : promise Z :=
  getFilesSizeByComponent mmFilepool (getId mmSite) (component this) (id module).

(** Get revision of a module. *)
Definition getRevision (this : object) (module : WSModule) (courseId : Z) : promise Z :=
  promise_then (call_getRevisionAndTimemodified this module courseId None) (λ data,
    Resolved (revision data)).

(** Get timemodified of a module. *)
Definition getTimemodified (this : object) (module : WSModule) (courseId : Z) : promise Z :=
  promise_then (call_getRevisionAndTimemodified this module courseId None) (λ data,
    Resolved (timemod data)).

(** Invalidate the prefetched content. *)
Definition invalidateContent (this : object) (moduleId : Z) : task unit :=
  issue (invalidateFilesByComponent (getId mmSite) (component this) moduleId).

(** Check if a module is downloadable. *)
Definition isDownloadable (this : object) (module : WSModule) (courseId : Z) : promise bool :=
  q_when (Plain (bool_decide (0 < Z.of_nat (length (contents module))))).

(** Whether or not the module is enabled for the site. *)
Definition isEnabled (this : object) : bool :=
  canDownloadFiles mmSite.

(** Remove module downloaded files. *)
Definition removeFiles (this : object) (module : WSModule) (courseId : Z) : task unit :=
  issue (removeFilesByComponent (getId mmSite) (component this) (id module)).

(** Returns a list of content file event names. *)
Definition getFileEventNames (this : object) (module : WSModule) : promise (list string) :=
  let siteId := getId mmSite in
  let that := this in
  let promises :=
    foldl (λ promises content,
             let url := fileurl content in
             if negb (call_isFileDownloadable that content) then promises
             else promises ++ [getFileEventNameByUrl mmFilepool siteId url])
          [] (contents module) in
  q_all promises.

(** Get event names of content files being downloaded: the promises pushed
    by the loop. The callback pushes to [eventNames]; a promise whose
    failure is ignored has left it as it was. *)
Definition downloadingFilesPromises (this : object) (module : WSModule)
    : list (promise (list string → list string)) :=
  let siteId := getId mmSite in
  let that := this in
  foldl (λ promises content,
           let url := fileurl content in
           if negb (call_isFileDownloadable that content) then promises
           else
             promises ++
               [promise_catch
                  (promise_then (isFileDownloadingByUrl mmFilepool siteId url) (λ _,
                     promise_then (getFileEventNameByUrl mmFilepool siteId url)
                       (λ eventName, Resolved (push eventName))))
                  (λ _, Resolved (λ eventNames, eventNames))])
        [] (contents module).

(** The promise getDownloadingFilesEventNames returns, when the promises
    settle in some order. *)
Definition getDownloadingFilesEventNames_settles (this : object) (module : WSModule)
    (r : promise (list string)) : Prop :=
  settles (downloadingFilesPromises this module) [] r.

(** The promise it returns when they settle in the order of the files. *)
Definition getDownloadingFilesEventNames (this : object) (module : WSModule)
    : promise (list string) :=
  settle_in_order (downloadingFilesPromises this module) [].

(** The function the template assigns to each property. *)
Definition source (m : method) (this : object) : signature m :=
  match m with
  | m_download => download this
  | m_downloadOrPrefetch => downloadOrPrefetch this
  | m_getContentDownloadableFiles => getContentDownloadableFiles this
  | m_getDownloadSize => getDownloadSize this
  | m_getDownloadedSize => getDownloadedSize this
  | m_getDownloadingFilesEventNames => getDownloadingFilesEventNames this
  | m_getFileEventNames => getFileEventNames this
  | m_getFiles => getFiles this
  | m_getIntroFiles => getIntroFiles this
  | m_getIntroFilesFromInstance => getIntroFilesFromInstance this
  | m_getRevision => getRevision this
  | m_getRevisionAndTimemodified => getRevisionAndTimemodified this
  | m_getTimemodified => getTimemodified this
  | m_invalidateContent => invalidateContent this
  | m_isDownloadable => isDownloadable this
  | m_isEnabled => isEnabled this
  | m_isFileDownloadable => isFileDownloadable this
  | m_prefetchContent => prefetchContent this
  | m_removeFiles => removeFiles this
  end.

(** The call [o.m(...)]: the function read from [o], run on [o]. *)
Definition invoke (o : object) (m : method) : signature m :=
  match get o m with
  | Source => source m o
  | Closure f => f
  end.

End ModulePrefetchHandler.

(** Returns the subclass of modulePrefetchHandler object. *)
Definition createPrefetchHandler (component : string) : object :=
  let child := Object_create modulePrefetchHandler in
  let child := set_component child component in
  child.


(** ** Notions used to state the properties *)

(** A promise that is resolved. *)
Definition is_resolved {A} (p : promise A) : bool :=
  match p with
  | Resolved _ => true
  | Rejected _ => false
  end.

(** The value of a promise that is resolved. *)
Definition resolved_value {A} (p : promise A) : option A :=
  match p with
  | Resolved a => Some a
  | Rejected _ => None
  end.

(** The values of the promises of a list that are resolved, in its order. *)
Definition resolved_values {A} (promises : list (promise A)) : list A :=
  omap resolved_value promises.

(** The change to an array of a callback that pushes [x], or pushes nothing. *)
Definition pushes {A} (x : option A) : list A → list A :=
  match x with
  | Some x => push x
  | None => λ array, array
  end.

(** The event name the callbacks of getDownloadingFilesEventNames push for a
    file: its event name when the file is being downloaded and has one. *)
Definition pushed_name (mmSite : Site) (mmFilepool : Filepool) (content : File)
    : option string :=
  let siteId := getId mmSite in
  if is_resolved (isFileDownloadingByUrl mmFilepool siteId (fileurl content))
  then resolved_value (getFileEventNameByUrl mmFilepool siteId (fileurl content))
  else None.

(** The calls that download, or add to the queue, each intro file by its URL. *)
Definition calls_by_url (prefetch : bool) (siteId component : string) (itemId : Z)
    (introFiles : list File) : list call :=
  (λ file,
     if prefetch then addToQueueByUrl siteId (fileurl file) component itemId (timemodified file)
     else downloadUrl siteId (fileurl file) false component itemId (timemodified file))
  <$> introFiles.

(** The site, the component and the item a call of the pool is made under. *)
Definition call_scope (c : call) : string * string * Z :=
  match c with
  | addToQueueByUrl siteId _ component itemId _ => (siteId, component, itemId)
  | downloadUrl siteId _ _ component itemId _ => (siteId, component, itemId)
  | downloadPackage siteId _ component itemId _ _ _ => (siteId, component, itemId)
  | prefetchPackage siteId _ component itemId _ _ _ => (siteId, component, itemId)
  | invalidateFilesByComponent siteId component itemId => (siteId, component, itemId)
  | removeFilesByComponent siteId component itemId => (siteId, component, itemId)
  end.

(** The URLs of the files a call gives the pool to download or to queue. *)
Definition call_urls (c : call) : list string :=
  match c with
  | addToQueueByUrl _ url _ _ _ => [url]
  | downloadUrl _ url _ _ _ _ => [url]
  | downloadPackage _ files _ _ _ _ _ => fileurl <$> files
  | prefetchPackage _ files _ _ _ _ _ => fileurl <$> files
  | invalidateFilesByComponent _ _ _ => []
  | removeFilesByComponent _ _ _ => []
  end.

(** The functions of the template that read [this.component]. *)
Definition reads_component (m : method) : bool :=
  match m with
  | m_download | m_downloadOrPrefetch | m_prefetchContent
  | m_getDownloadedSize | m_invalidateContent | m_removeFiles => true
  | _ => false
  end.

(** ** Services and modules used in the examples *)
Module Scenario.

(** A site that allows downloads. *)
Definition site : Site := {| getId := "site1"; canDownloadFiles := true |}.

(** An extraction that finds one file, whose URL is the text itself, and a
    size that counts the files. *)
Definition util : Util :=
  {| extractDownloadableFilesFromHtmlAsFakeFileObjects :=
       λ html, [ {| type := EmptyString; fileurl := html; timemodified := 0 |} ];
     sumFileSizes := λ files, Z.of_nat (length files) |}.

(** A pool in which every call succeeds, timemodified is the maximum of the
    list and the revision its sum; the file at "b" is not being downloaded,
    and the file at "c" has no event name. *)
Definition pool : Filepool :=
  {| settle := λ _, Resolved tt;
     getFilesSizeByComponent := λ _ _ _, Resolved 0;
     getTimemodifiedFromFileList := λ files, foldr (λ f t, Z.max (timemodified f) t) 0 files;
     getRevisionFromFileList := λ files, foldr (λ f r, timemodified f + r) 0 files;
     isFileDownloadingByUrl := λ _ url,
       if bool_decide (url = "b") then Rejected "not being downloaded" else Resolved tt;
     getFileEventNameByUrl := λ _ url,
       if bool_decide (url = "c") then Rejected "no event name"
       else Resolved ("filepool:" +:+ url) |}.

Definition file (url : string) (t : Z) : File :=
  {| type := "file"; fileurl := url; timemodified := t |}.

(** The file the extraction finds in the text "a". *)
Definition intro_a : File :=
  {| type := EmptyString; fileurl := "a"; timemodified := 0 |}.

(** The module of the scenario: a file and a URL. *)
Definition module7 : WSModule :=
  {| id := 7;
     contents := [ file "a" 100; {| type := "url"; fileurl := "b"; timemodified := 50 |} ];
     description := None |}.

(** A module whose description refers to the file that is also its content. *)
Definition described : WSModule :=
  {| id := 8; contents := [ file "a" 100 ]; description := Some "a" |}.

(** A module with three downloadable files. *)
Definition three_files : WSModule :=
  {| id := 9; contents := [ file "a" 1; file "b" 2; file "d" 3 ]; description := None |}.

(** A module with a file that is being downloaded and has no event name. *)
Definition unnamed_file : WSModule :=
  {| id := 10; contents := [ file "a" 1; file "c" 2; file "d" 3 ]; description := None |}.

(** A handler whose getIntroFiles is replaced by one that fails. *)
Definition offline_handler : object :=
  set_method (createPrefetchHandler "mod_page") m_getIntroFiles
    (Closure (m := m_getIntroFiles) (λ _ _, Rejected "offline")).

(** A handler whose getIntroFiles is replaced by one that resolves with the
    files of an instance fetched elsewhere. *)
Definition book_handler : object :=
  set_method (createPrefetchHandler "mod_book") m_getIntroFiles
    (Closure (m := m_getIntroFiles) (λ _ _, Resolved [ file "intro.png" 5 ])).

(** A handler for which every entry with a URL other than "b" can be
    downloaded, whatever its type. *)
Definition url_handler : object :=
  set_method (createPrefetchHandler "mod_url") m_isFileDownloadable
    (Closure (m := m_isFileDownloadable)
       (λ content, negb (bool_decide (fileurl content = "b")))).

End Scenario.

(** ** Properties *)

(** *** The loops that push to an array *)

Lemma foldl_push_if {A B} (keep : A → bool) (g : A → B) (l : list A) (acc : list B) :
  foldl (λ acc x, if keep x then acc ++ [g x] else acc) acc l
  = acc ++ (g <$> filter (λ x, keep x) l).
Proof.
  revert acc. induction l as [|x l IH]; intros acc; simpl.
  - by rewrite app_nil_r.
  - rewrite IH, filter_cons. destruct (keep x); simpl.
    + by rewrite <- app_assoc.
    + done.
Qed.

Lemma foldl_push {A B} (g : A → B) (l : list A) (acc : list B) :
  foldl (λ acc x, acc ++ [g x]) acc l = acc ++ (g <$> l).
Proof.
  revert acc. induction l as [|x l IH]; intros acc; simpl.
  - by rewrite app_nil_r.
  - by rewrite IH, <- app_assoc.
Qed.

Lemma foldl_push_unless_not {A B} (keep : A → bool) (g : A → B) (l : list A) (acc : list B) :
  foldl (λ acc x, if negb (keep x) then acc else acc ++ [g x]) acc l
  = acc ++ (g <$> filter (λ x, keep x) l).
Proof.
  rewrite <- foldl_push_if. revert acc.
  induction l as [|x l IH]; intros acc; simpl; [done|].
  rewrite IH. by destruct (keep x).
Qed.

(** *** Promises settling in any order *)

Lemma settle_in_order_pushes {A} (xs : list (option A)) (array : list A) :
  settle_in_order ((λ x, Resolved (pushes x)) <$> xs) array
  = Resolved (array ++ omap (λ x, x) xs).
Proof.
  revert array. induction xs as [|[x|] xs IH]; intros array; simpl.
  - by rewrite app_nil_r.
  - rewrite IH. unfold push. by rewrite <- app_assoc.
  - apply IH.
Qed.

Lemma settles_pushes {A} (xs : list (option A)) (array : list A) (r : promise (list A)) :
  settles ((λ x, Resolved (pushes x)) <$> xs) array r →
  ∃ pushed, r = Resolved (array ++ pushed) ∧ pushed ≡ₚ omap (λ x, x) xs.
Proof.
  intros Hsettles.
  remember ((λ x, Resolved (pushes x)) <$> xs) as promises eqn:Hpromises.
  revert xs Hpromises.
  induction Hsettles as [array|before change after array r _ IH|before reason after array];
    intros xs Hpromises; symmetry in Hpromises.
  - apply fmap_nil_inv in Hpromises as ->.
    exists []. by rewrite app_nil_r.
  - apply fmap_app_inv in Hpromises as (xs1 & xs' & -> & Hcons & ->).
    symmetry in Hcons. apply fmap_cons_inv in Hcons as (x & xs2 & [= ->] & -> & ->).
    destruct (IH (xs1 ++ xs2)) as (pushed & -> & Hpushed); [by rewrite fmap_app|].
    rewrite omap_app in Hpushed. rewrite omap_app.
    destruct x as [x|]; simpl.
    + exists (x :: pushed). split.
      * unfold push. by rewrite <- app_assoc.
      * rewrite Hpushed. apply Permutation_middle.
    + exists pushed. done.
  - apply fmap_app_inv in Hpromises as (xs1 & xs' & _ & Hcons & _).
    symmetry in Hcons. by apply fmap_cons_inv in Hcons as (x & xs2 & [=] & _).
Qed.

Lemma resolved_values_resolved {A} (l : list A) :
  resolved_values (Resolved <$> l) = l.
Proof.
  unfold resolved_values. induction l as [|a l IH]; [done|].
  cbn [fmap list_fmap omap list_omap resolved_value]. by rewrite IH.
Qed.

Lemma omap_fmap_id {A B} (f : A → option B) (l : list A) :
  omap (λ x, x) (f <$> l) = omap f l.
Proof.
  induction l as [|a l IH]; [done|]. cbn [fmap list_fmap omap list_omap].
  by rewrite IH.
Qed.

Lemma settles_in_order {S} (promises : list (promise (S → S))) (s : S) :
  settles promises s (settle_in_order promises s).
Proof.
  revert s. induction promises as [|[change|reason] promises IH]; intros s; simpl.
  - constructor.
  - apply (settles_resolved []). apply IH.
  - apply (settles_rejected []).
Qed.

Section Properties.

Variable mmSite : Site.
Variable mmFilepool : Filepool.
Variable mmUtil : Util.

(** *** Content files *)

Lemma getContentDownloadableFiles_filter (this : object) (module : WSModule) :
  getContentDownloadableFiles this module
  = filter (λ content, call_isFileDownloadable this content) (contents module).
Proof.
  unfold getContentDownloadableFiles.
  rewrite (foldl_push_if (call_isFileDownloadable this) (λ content, content)).
  simpl. by rewrite list_fmap_id.
Qed.

Lemma call_isFileDownloadable_source (this : object) (file : File) :
  get this m_isFileDownloadable = Source →
  call_isFileDownloadable this file = bool_decide (type file = "file").
Proof. unfold call_isFileDownloadable. by intros ->. Qed.

(** C9. isFileDownloadable is true exactly for a file whose type is "file",
    and getContentDownloadableFiles returns the entries of module.contents
    that the receiver's isFileDownloadable accepts, in their order: for the
    template and for every handler the factory creates, the entries whose
    type is "file". *)
Theorem getContentDownloadableFiles_spec (this : object) (file : File) (module : WSModule) :
  (isFileDownloadable this file = true ↔ type file = "file") ∧
  getContentDownloadableFiles this module
    = filter (λ content, call_isFileDownloadable this content) (contents module) ∧
  getContentDownloadableFiles modulePrefetchHandler module
    = filter (λ content, type content = "file") (contents module) ∧
  (∀ c, getContentDownloadableFiles (createPrefetchHandler c) module
    = filter (λ content, type content = "file") (contents module)) ∧
  getContentDownloadableFiles this module `sublist_of` contents module.
Proof.
  assert (Hsource : ∀ o, get o m_isFileDownloadable = Source →
    getContentDownloadableFiles o module
    = filter (λ content, type content = "file") (contents module)).
  { intros o Ho. rewrite getContentDownloadableFiles_filter.
    apply list_filter_iff. intros content.
    rewrite call_isFileDownloadable_source by done.
    apply bool_decide_spec. }
  split_and!.
  - unfold isFileDownloadable. rewrite bool_decide_eq_true. done.
  - apply getContentDownloadableFiles_filter.
  - by apply Hsource.
  - intros c. by apply Hsource.
  - rewrite getContentDownloadableFiles_filter. apply sublist_filter.
Qed.

(** C8. isDownloadable resolves to false for a module whose contents are
    empty, and to true for a module with at least one entry, whatever the
    types of the entries: also when no entry is a downloadable file. *)
Theorem isDownloadable_spec (this : object) (courseId : Z) (i : Z) (d : option string) :
  isDownloadable this {| id := i; contents := []; description := d |} courseId
    = Resolved false ∧
  (∀ content rest,
    isDownloadable this {| id := i; contents := content :: rest; description := d |} courseId
      = Resolved true) ∧
  (∀ module,
    isDownloadable this module courseId = Resolved (bool_decide (contents module ≠ []))) ∧
  (∀ t url time, t ≠ "file" →
    let module :=
      {| id := i; contents := [ {| type := t; fileurl := url; timemodified := time |} ];
         description := d |} in
    getContentDownloadableFiles modulePrefetchHandler module = [] ∧
    isDownloadable modulePrefetchHandler module courseId = Resolved true).
Proof.
  split_and!.
  - reflexivity.
  - intros content rest. reflexivity.
  - intros module. unfold isDownloadable, q_when. f_equal.
    destruct (contents module) as [|content rest]; simpl length.
    + rewrite bool_decide_eq_false_2 by lia. by rewrite bool_decide_eq_false_2 by naive_solver.
    + rewrite bool_decide_eq_true_2 by lia. by rewrite bool_decide_eq_true_2.
  - intros t url time Ht module. split.
    + unfold module, getContentDownloadableFiles, call_isFileDownloadable, isFileDownloadable.
      simpl. by rewrite bool_decide_eq_false_2.
    + reflexivity.
Qed.

(** *** Intro files *)

Lemma call_getIntroFiles_source (this : object) (module : WSModule) (courseId : Z) :
  get this m_getIntroFiles = Source →
  get this m_getIntroFilesFromInstance = Source →
  call_getIntroFiles mmUtil this module courseId
  = Resolved
      match truthy_string (description module) with
      | Some html => extractDownloadableFilesFromHtmlAsFakeFileObjects mmUtil html
      | None => []
      end.
Proof.
  intros Hintro Hinstance.
  unfold call_getIntroFiles, getIntroFiles, call_getIntroFilesFromInstance.
  rewrite Hintro, Hinstance. unfold getIntroFilesFromInstance.
  by destruct (truthy_string (description module)).
Qed.

(** C2. The intro files getIntroFilesFromInstance returns, once $q.when has
    adopted them: the introfiles of the instance when an instance is given and
    its introfiles are defined, whatever intro and module.description hold;
    else the files extracted from the intro of the instance when it is a
    non-empty string; else the files extracted from module.description when it
    is a non-empty string; else none. getIntroFiles, which passes no instance,
    resolves with the last two. *)
Theorem getIntroFilesFromInstance_priority (this : object) (module : WSModule)
    (instance : option Instance) (courseId : Z) :
  let extract := extractDownloadableFilesFromHtmlAsFakeFileObjects mmUtil in
  q_when (getIntroFilesFromInstance mmUtil this module instance)
    = Resolved
        match instance ≫= introfiles with
        | Some files => files
        | None =>
            match truthy_string (instance ≫= intro) with
            | Some html => extract html
            | None =>
                match truthy_string (description module) with
                | Some html => extract html
                | None => []
                end
            end
        end ∧
  (∀ files html,
    getIntroFilesFromInstance mmUtil this module
      (Some {| introfiles := Some files; intro := html |}) = Plain files) ∧
  (∀ a html,
    getIntroFilesFromInstance mmUtil this module
      (Some {| introfiles := None; intro := Some (String a html) |})
    = Plain (extract (String a html))) ∧
  (∀ i files a html,
    q_when (getIntroFilesFromInstance mmUtil this
      {| id := i; contents := files; description := Some (String a html) |} None)
    = Resolved (extract (String a html))) ∧
  (∀ i files,
    getIntroFilesFromInstance mmUtil this
      {| id := i; contents := files; description := None |} None = Plain []) ∧
  (∀ i files,
    getIntroFilesFromInstance mmUtil this
      {| id := i; contents := files; description := Some EmptyString |} None = Plain []) ∧
  (∀ handler, handler = modulePrefetchHandler ∨ (∃ c, handler = createPrefetchHandler c) →
    getIntroFiles mmUtil handler module courseId
    = Resolved
        match truthy_string (description module) with
        | Some html => extract html
        | None => []
        end).
Proof.
  intros extract. split_and!; try done.
  - unfold getIntroFilesFromInstance.
    destruct instance as [[[files|] [[|a html]|]]|]; simpl;
      by destruct (truthy_string (description module)).
  - intros handler Hhandler. subst extract.
    rewrite <- (call_getIntroFiles_source handler module courseId);
      by destruct Hhandler as [->|[c ->]].
Qed.

(** *** Revision and timemodified *)

(** C1. getRevisionAndTimemodified takes the intro files, which are the
    introFiles argument when it is given and what the receiver's getIntroFiles
    resolves with otherwise, appends all of module.contents, downloadable or
    not, and resolves with the timemodified and the revision the pool derives
    from that whole list. *)
Theorem getRevisionAndTimemodified_spec (this : object) (module : WSModule) (courseId : Z)
    (introFiles : option (list File)) (files : list File) :
  match introFiles with
  | Some supplied => Resolved supplied
  | None => call_getIntroFiles mmUtil this module courseId
  end = Resolved files →
  getRevisionAndTimemodified mmFilepool mmUtil this module courseId introFiles
  = Resolved
      {| timemod := getTimemodifiedFromFileList mmFilepool (files ++ contents module);
         revision := getRevisionFromFileList mmFilepool (files ++ contents module) |}.
Proof.
  intros Hfiles. unfold getRevisionAndTimemodified.
  destruct introFiles as [supplied|]; simpl in *.
  - by injection Hfiles as ->.
  - by rewrite Hfiles.
Qed.

(** C7. Passing to getRevisionAndTimemodified the intro files that the
    receiver's getIntroFiles resolves with gives the same promise as passing
    none and letting it calculate them. *)
Theorem getRevisionAndTimemodified_introFiles (this : object) (module : WSModule)
    (courseId : Z) (introFiles : list File) :
  call_getIntroFiles mmUtil this module courseId = Resolved introFiles →
  getRevisionAndTimemodified mmFilepool mmUtil this module courseId (Some introFiles)
  = getRevisionAndTimemodified mmFilepool mmUtil this module courseId None.
Proof.
  intros Hintro. unfold getRevisionAndTimemodified. by rewrite Hintro.
Qed.

(** *** All files *)

(** C6. getFiles resolves with the intro files the receiver's getIntroFiles
    resolves with, followed by the files of getContentDownloadableFiles: a URL
    occurs in the result as often as in the two lists together. *)
Theorem getFiles_concat (this : object) (module : WSModule) (courseId : Z)
    (introFiles : list File) :
  call_getIntroFiles mmUtil this module courseId = Resolved introFiles →
  getFiles mmUtil this module courseId
    = Resolved (introFiles ++ call_getContentDownloadableFiles this module) ∧
  ∀ files, getFiles mmUtil this module courseId = Resolved files →
    length files
    = (length introFiles + length (call_getContentDownloadableFiles this module))%nat ∧
    ∀ url : string,
      length (filter (λ file, fileurl file = url) files)
      = (length (filter (λ file, fileurl file = url) introFiles)
         + length (filter (λ file, fileurl file = url)
                     (call_getContentDownloadableFiles this module)))%nat.
Proof.
  intros Hintro.
  assert (Hfiles : getFiles mmUtil this module courseId
    = Resolved (introFiles ++ call_getContentDownloadableFiles this module)).
  { unfold getFiles. by rewrite Hintro. }
  split; [done|]. intros files. rewrite Hfiles. intros [= <-].
  split; [by rewrite length_app|].
  intros url. by rewrite filter_app, length_app.
Qed.

(** *** Event names of the files being downloaded *)

Lemma downloadingFilesPromises_pushes (this : object) (module : WSModule) :
  downloadingFilesPromises mmSite mmFilepool this module
  = (λ x, Resolved (pushes x))
    <$> (pushed_name mmSite mmFilepool
         <$> filter (λ content, call_isFileDownloadable this content) (contents module)).
Proof.
  unfold downloadingFilesPromises.
  rewrite (foldl_push_unless_not (call_isFileDownloadable this)). simpl.
  rewrite <- list_fmap_compose. apply list_fmap_ext. intros _ content _. simpl.
  unfold pushed_name.
  destruct (isFileDownloadingByUrl mmFilepool (getId mmSite) (fileurl content)); [|done].
  simpl. by destruct (getFileEventNameByUrl mmFilepool (getId mmSite) (fileurl content)).
Qed.

Lemma pushed_names (this : object) (files : list File) :
  omap (pushed_name mmSite mmFilepool)
    (filter (λ content, call_isFileDownloadable this content) files)
  = resolved_values
      ((λ content, getFileEventNameByUrl mmFilepool (getId mmSite) (fileurl content))
       <$> filter (λ content,
                     call_isFileDownloadable this content ∧
                     is_resolved (isFileDownloadingByUrl mmFilepool (getId mmSite)
                                    (fileurl content)))
                  files).
Proof.
  unfold resolved_values.
  induction files as [|content files IH]; [done|].
  rewrite !filter_cons.
  destruct (call_isFileDownloadable this content).
  - rewrite decide_True by done.
    cbn [omap list_omap]. rewrite IH. unfold pushed_name.
    destruct (is_resolved (isFileDownloadingByUrl mmFilepool (getId mmSite)
                             (fileurl content))).
    + rewrite decide_True by done. reflexivity.
    + rewrite decide_False by (intros [_ []]). reflexivity.
  - rewrite decide_False by (intros []). rewrite decide_False by (intros [[] _]). exact IH.
Qed.

Lemma getDownloadingFilesEventNames_pushed (this : object) (module : WSModule) :
  let pushed :=
    omap (pushed_name mmSite mmFilepool)
      (filter (λ content, call_isFileDownloadable this content) (contents module)) in
  getDownloadingFilesEventNames mmSite mmFilepool this module = Resolved pushed ∧
  ∀ r, getDownloadingFilesEventNames_settles mmSite mmFilepool this module r →
    ∃ eventNames, r = Resolved eventNames ∧ eventNames ≡ₚ pushed.
Proof.
  intros pushed. unfold pushed. rewrite <- omap_fmap_id. split.
  - unfold getDownloadingFilesEventNames.
    by rewrite downloadingFilesPromises_pushes, settle_in_order_pushes.
  - intros r. unfold getDownloadingFilesEventNames_settles.
    rewrite downloadingFilesPromises_pushes. apply settles_pushes.
Qed.

(** C4. In getDownloadingFilesEventNames a file whose check
    isFileDownloadingByUrl is rejected is skipped and no failure reaches the
    caller: in whatever order the promises settle, the promise returned is
    resolved, with the event names of the downloadable files whose check is
    resolved, in the order of the files when the promises settle in that
    order: exactly one name for each of these files when each has one. *)
Theorem getDownloadingFilesEventNames_ignores_failed_checks (this : object)
    (module : WSModule) :
  let siteId := getId mmSite in
  let downloading :=
    filter (λ content,
              call_isFileDownloadable this content ∧
              is_resolved (isFileDownloadingByUrl mmFilepool siteId (fileurl content)))
           (contents module) in
  let names :=
    resolved_values
      ((λ content, getFileEventNameByUrl mmFilepool siteId (fileurl content))
       <$> downloading) in
  getDownloadingFilesEventNames mmSite mmFilepool this module = Resolved names ∧
  getDownloadingFilesEventNames_settles mmSite mmFilepool this module (Resolved names) ∧
  (∀ r, getDownloadingFilesEventNames_settles mmSite mmFilepool this module r →
    ∃ eventNames, r = Resolved eventNames ∧ eventNames ≡ₚ names) ∧
  (∀ eventNames,
    (λ content, getFileEventNameByUrl mmFilepool siteId (fileurl content)) <$> downloading
      = Resolved <$> eventNames →
    names = eventNames).
Proof.
  cbv zeta.
  destruct (getDownloadingFilesEventNames_pushed this module) as [Horder Hany].
  rewrite pushed_names in Horder, Hany. split_and!; [done| |done|].
  - unfold getDownloadingFilesEventNames_settles.
    unfold getDownloadingFilesEventNames in Horder. rewrite <- Horder.
    apply settles_in_order.
  - intros eventNames ->. apply resolved_values_resolved.
Qed.

(** C10. In getDownloadingFilesEventNames a downloadable file that is being
    downloaded and whose getFileEventNameByUrl is rejected is left out as
    well, and no failure reaches the caller: in whatever order the promises
    settle, the promise returned is resolved, with the event names of the
    remaining files, which are those of the downloadable files before and
    after it whose check is resolved (in the order of the files when the
    promises settle in that order, exactly one name for each when each has
    one). It is the result for the module without the file. *)
Theorem getDownloadingFilesEventNames_ignores_failed_names (this : object)
    (module : WSModule) (before : list File) (content : File) (after : list File)
    (reason : string) :
  contents module = before ++ content :: after →
  call_isFileDownloadable this content = true →
  is_resolved (isFileDownloadingByUrl mmFilepool (getId mmSite) (fileurl content)) = true →
  getFileEventNameByUrl mmFilepool (getId mmSite) (fileurl content) = Rejected reason →
  let siteId := getId mmSite in
  let downloading := λ files : list File,
    filter (λ content,
              call_isFileDownloadable this content ∧
              is_resolved (isFileDownloadingByUrl mmFilepool siteId (fileurl content)))
           files in
  let names := λ files : list File,
    resolved_values
      ((λ content, getFileEventNameByUrl mmFilepool siteId (fileurl content))
       <$> downloading files) in
  let others :=
    {| id := id module; contents := before ++ after; description := description module |} in
  content ∈ downloading (contents module) ∧
  getDownloadingFilesEventNames mmSite mmFilepool this module
    = Resolved (names before ++ names after) ∧
  getDownloadingFilesEventNames_settles mmSite mmFilepool this module
    (Resolved (names before ++ names after)) ∧
  (∀ r, getDownloadingFilesEventNames_settles mmSite mmFilepool this module r →
    ∃ eventNames, r = Resolved eventNames ∧ eventNames ≡ₚ names before ++ names after) ∧
  getDownloadingFilesEventNames mmSite mmFilepool this others
    = Resolved (names before ++ names after) ∧
  (∀ eventNames,
    (λ content, getFileEventNameByUrl mmFilepool siteId (fileurl content))
      <$> downloading (before ++ after)
    = Resolved <$> eventNames →
    getDownloadingFilesEventNames mmSite mmFilepool this module = Resolved eventNames).
Proof.
  intros Hcontents Hdownloadable Hchecked Hname. cbv zeta.
  assert (Hpasses :
    call_isFileDownloadable this content ∧
    is_resolved (isFileDownloadingByUrl mmFilepool (getId mmSite) (fileurl content))).
  { by rewrite Hdownloadable, Hchecked. }
  destruct (getDownloadingFilesEventNames_pushed this module) as [Horder Hany].
  destruct (getDownloadingFilesEventNames_pushed this
              {| id := id module; contents := before ++ after;
                 description := description module |}) as [Hothers _].
  rewrite pushed_names in Horder, Hany, Hothers. cbn [contents] in Hothers.
  assert (Hwithout :
    resolved_values
      ((λ content, getFileEventNameByUrl mmFilepool (getId mmSite) (fileurl content))
       <$> filter (λ content,
                     call_isFileDownloadable this content ∧
                     is_resolved (isFileDownloadingByUrl mmFilepool (getId mmSite)
                                    (fileurl content)))
                  (before ++ after))
    = resolved_values
        ((λ content, getFileEventNameByUrl mmFilepool (getId mmSite) (fileurl content))
         <$> filter (λ content,
                       call_isFileDownloadable this content ∧
                       is_resolved (isFileDownloadingByUrl mmFilepool (getId mmSite)
                                      (fileurl content)))
                    before)
      ++ resolved_values
           ((λ content, getFileEventNameByUrl mmFilepool (getId mmSite) (fileurl content))
            <$> filter (λ content,
                          call_isFileDownloadable this content ∧
                          is_resolved (isFileDownloadingByUrl mmFilepool (getId mmSite)
                                         (fileurl content)))
                       after)).
  { unfold resolved_values. by rewrite filter_app, fmap_app, omap_app. }
  assert (Hwith :
    resolved_values
      ((λ content, getFileEventNameByUrl mmFilepool (getId mmSite) (fileurl content))
       <$> filter (λ content,
                     call_isFileDownloadable this content ∧
                     is_resolved (isFileDownloadingByUrl mmFilepool (getId mmSite)
                                    (fileurl content)))
                  (contents module))
    = resolved_values
        ((λ content, getFileEventNameByUrl mmFilepool (getId mmSite) (fileurl content))
         <$> filter (λ content,
                       call_isFileDownloadable this content ∧
                       is_resolved (isFileDownloadingByUrl mmFilepool (getId mmSite)
                                      (fileurl content)))
                    (before ++ after))).
  { rewrite Hcontents. unfold resolved_values.
    rewrite !filter_app, filter_cons, decide_True by done.
    rewrite !fmap_app, fmap_cons, !omap_app. cbn [omap list_omap].
    by rewrite Hname. }
  rewrite Hwith, Hwithout in Horder, Hany. rewrite Hwithout in Hothers.
  split_and!.
  - apply list_elem_of_filter. split; [done|].
    rewrite Hcontents. apply elem_of_app. right. by left.
  - done.
  - unfold getDownloadingFilesEventNames_settles.
    unfold getDownloadingFilesEventNames in Horder. rewrite <- Horder.
    apply settles_in_order.
  - done.
  - done.
  - intros eventNames Hall. rewrite Horder, <- Hwithout, Hall.
    by rewrite resolved_values_resolved.
Qed.

(** *** Download and prefetch *)

Lemma downloadOrPrefetch_promises (this : object) (module : WSModule) (courseId : Z)
    (prefetch : bool) (dirPath : option string) (introFiles : list File) (data : Data) :
  call_getIntroFiles mmUtil this module courseId = Resolved introFiles →
  call_getRevisionAndTimemodified mmFilepool mmUtil this module courseId (Some introFiles)
    = Resolved data →
  let siteId := getId mmSite in
  let contentFiles := call_getContentDownloadableFiles this module in
  let downloadFn := if prefetch then prefetchPackage else downloadPackage in
  downloadOrPrefetch mmSite mmFilepool mmUtil this module courseId prefetch dirPath
  = q_all_issued mmFilepool
      match truthy_string dirPath with
      | Some _ =>
          calls_by_url prefetch siteId (component this) (id module) introFiles
          ++ [downloadFn siteId contentFiles (component this) (id module)
                (revision data) (timemod data) dirPath]
      | None =>
          [downloadFn siteId (introFiles ++ contentFiles) (component this) (id module)
             (revision data) (timemod data) None]
      end.
Proof.
  intros Hintro Hdata. cbv zeta. unfold downloadOrPrefetch.
  rewrite Hintro. cbn [promise_then_task]. rewrite Hdata. cbn [promise_then_task].
  f_equal. destruct (truthy_string dirPath); [|done].
  f_equal. unfold calls_by_url. destruct prefetch; by rewrite foldl_push.
Qed.

(** C3, as the source has it. Once the receiver's getIntroFiles has resolved
    with the intro files and its getRevisionAndTimemodified, given them, with
    revision and timemodified, download issues one call, downloadPackage, for
    the intro files followed by the downloadable content files, under the
    receiver's component and module.id, and no call per file; prefetchContent
    issues the one call prefetchPackage in the same way. The calls per intro
    file (downloadUrl, addToQueueByUrl when prefetching) and a package of the
    content files alone are issued by downloadOrPrefetch when it is given a
    non-empty dirPath. The promise returned is $q.all over the calls. *)
Theorem download_calls (this : object) (module : WSModule) (courseId : Z)
    (introFiles : list File) (data : Data) :
  get this m_downloadOrPrefetch = Source →
  call_getIntroFiles mmUtil this module courseId = Resolved introFiles →
  call_getRevisionAndTimemodified mmFilepool mmUtil this module courseId (Some introFiles)
    = Resolved data →
  let siteId := getId mmSite in
  let contentFiles := call_getContentDownloadableFiles this module in
  download mmSite mmFilepool mmUtil this module courseId
    = q_all_issued mmFilepool
        [downloadPackage siteId (introFiles ++ contentFiles) (component this) (id module)
           (revision data) (timemod data) None] ∧
  (∀ single,
    prefetchContent mmSite mmFilepool mmUtil this module courseId single
    = q_all_issued mmFilepool
        [prefetchPackage siteId (introFiles ++ contentFiles) (component this) (id module)
           (revision data) (timemod data) None]) ∧
  (∀ a path,
    downloadOrPrefetch mmSite mmFilepool mmUtil this module courseId false
      (Some (String a path))
    = q_all_issued mmFilepool
        (calls_by_url false siteId (component this) (id module) introFiles
         ++ [downloadPackage siteId contentFiles (component this) (id module)
               (revision data) (timemod data) (Some (String a path))])) ∧
  (∀ a path,
    downloadOrPrefetch mmSite mmFilepool mmUtil this module courseId true
      (Some (String a path))
    = q_all_issued mmFilepool
        (calls_by_url true siteId (component this) (id module) introFiles
         ++ [prefetchPackage siteId contentFiles (component this) (id module)
               (revision data) (timemod data) (Some (String a path))])).
Proof.
  intros Hsource Hintro Hdata. cbv zeta.
  unfold download, prefetchContent, call_downloadOrPrefetch. rewrite Hsource.
  split_and!; intros; by rewrite (downloadOrPrefetch_promises _ _ _ _ _ _ _ Hintro Hdata).
Qed.

(** *** The factory *)

Lemma get_set_method (o : object) (m : method) (f : function m) :
  get (set_method o m f) m = f.
Proof.
  destruct o as [|own proto]; simpl;
    destruct (decide (m = m)) as [e|]; try done;
    by rewrite (proof_irrel e eq_refl).
Qed.

Lemma get_set_method_ne (o : object) (m m' : method) (f : function m) :
  m ≠ m' → get (set_method o m f) m' = get o m'.
Proof.
  intros Hne. destruct o as [|own proto]; simpl;
    by destruct (decide (m = m')).
Qed.

Lemma component_set_method (o : object) (m : method) (f : function m) :
  component (set_method o m f) = component o.
Proof. by destruct o. Qed.

(** C5. createPrefetchHandler(c) returns an object whose component is c and
    whose nineteen function properties are those of the template: calling one
    on it runs the template's function with the new object as [this]. The
    functions that do not read [this.component] give on every input what they
    give on the template, the others act under c (as on the template when c
    is the template's 'core_res'). A function a caller assigns afterwards
    replaces one property of the new object and leaves its other properties
    as the template has them. *)
Theorem createPrefetchHandler_spec (c : string) :
  let child := createPrefetchHandler c in
  component child = c ∧
  (∀ m, get child m = get modulePrefetchHandler m) ∧
  (∀ m, invoke mmSite mmFilepool mmUtil child m = source mmSite mmFilepool mmUtil m child) ∧
  (∀ m, reads_component m = false →
    invoke mmSite mmFilepool mmUtil child m
    = invoke mmSite mmFilepool mmUtil modulePrefetchHandler m) ∧
  (∀ m, invoke mmSite mmFilepool mmUtil (createPrefetchHandler "core_res") m
    = invoke mmSite mmFilepool mmUtil modulePrefetchHandler m) ∧
  (∀ module courseId,
    getDownloadedSize mmSite mmFilepool child module courseId
    = getFilesSizeByComponent mmFilepool (getId mmSite) c (id module) ∧
    removeFiles mmSite mmFilepool child module courseId
    = issue mmFilepool (removeFilesByComponent (getId mmSite) c (id module)) ∧
    invalidateContent mmSite mmFilepool child (id module)
    = issue mmFilepool (invalidateFilesByComponent (getId mmSite) c (id module))) ∧
  (∀ m (f : function m),
    let overridden := set_method child m f in
    component overridden = c ∧
    get overridden m = f ∧
    (∀ m', m ≠ m' → get overridden m' = get modulePrefetchHandler m') ∧
    get child m = Source).
Proof.
  cbv zeta. split_and!.
  - reflexivity.
  - reflexivity.
  - reflexivity.
  - intros m Hm. destruct m; try discriminate Hm; reflexivity.
  - intros m. destruct m; reflexivity.
  - intros module courseId. split_and!; reflexivity.
  - intros m f. split_and!.
    + by rewrite component_set_method.
    + apply get_set_method.
    + intros m' Hne. by rewrite get_set_method_ne.
    + reflexivity.
Qed.

End Properties.

(** ** Further properties of the template's functions *)

(** *** $q.all *)

Lemma q_all_resolved {A} (promises : list (promise A)) (l : list A) :
  q_all promises = Resolved l ↔ promises = Resolved <$> l.
Proof.
  revert l. induction promises as [|[a|reason] promises IH]; intros l; simpl.
  - split.
    + intros [= <-]. done.
    + intros Hl. symmetry in Hl. by apply fmap_nil_inv in Hl as ->.
  - destruct (q_all promises) as [l'|reason] eqn:Hall; simpl.
    + split.
      * intros [= <-]. simpl. f_equal. by apply IH.
      * destruct l as [|a' l]; intros [= -> Hl]. f_equal. f_equal.
        apply IH in Hl. congruence.
    + split; [done|]. destruct l as [|a' l]; intros [= -> Hl].
      apply IH in Hl. discriminate.
  - split; [done|]. by destruct l.
Qed.

Lemma q_all_rejected {A} (promises : list (promise A)) :
  (∃ reason, q_all promises = Rejected reason) ↔ (∃ reason, Rejected reason ∈ promises).
Proof.
  induction promises as [|[a|reason] promises IH]; simpl.
  - split; intros [reason H]; [done|]. by apply elem_of_nil in H.
  - destruct (q_all promises) as [l|reason'] eqn:Hall; simpl.
    + split; intros [reason H]; [done|].
      apply elem_of_cons in H as [[=]|H].
      destruct (proj2 IH (ex_intro _ reason H)) as [? [=]].
    + split; intros _; [|by eauto].
      destruct (proj1 IH (ex_intro _ reason' eq_refl)) as [reason H].
      exists reason. by right.
  - split; intros _; [|by eauto]. exists reason. by left.
Qed.

Lemma q_all_rejected_elem {A} (promises : list (promise A)) (reason : string) :
  q_all promises = Rejected reason → Rejected reason ∈ promises.
Proof.
  induction promises as [|[a|reason'] promises IH]; simpl; [done| |].
  - destruct (q_all promises) as [l|reason'] eqn:Hall; simpl; [done|].
    intros [= ->]. right. by apply IH.
  - intros [= ->]. by left.
Qed.

Lemma sublist_omap {A B} (f : A → option B) (l1 l2 : list A) :
  l1 `sublist_of` l2 → omap f l1 `sublist_of` omap f l2.
Proof.
  induction 1 as [|x l1 l2 _ IH|x l1 l2 _ IH]; cbn [omap list_omap].
  - constructor.
  - destruct (f x); [by constructor|done].
  - destruct (f x); [by constructor|done].
Qed.

Lemma omap_length_le {A B} (f : A → option B) (l : list A) :
  (length (omap f l) ≤ length l)%nat.
Proof.
  induction l as [|a l IH]; [done|]. cbn [omap list_omap].
  destruct (f a); simpl; lia.
Qed.

Section FurtherProperties.

Variable mmSite : Site.
Variable mmFilepool : Filepool.
Variable mmUtil : Util.

(** *** Event names *)

Lemma getFileEventNames_q_all (this : object) (module : WSModule) :
  getFileEventNames mmSite mmFilepool this module
  = q_all ((λ content, getFileEventNameByUrl mmFilepool (getId mmSite) (fileurl content))
           <$> filter (λ content, call_isFileDownloadable this content) (contents module)).
Proof.
  unfold getFileEventNames. cbv zeta.
  by rewrite (foldl_push_unless_not (call_isFileDownloadable this)).
Qed.

(** X1. getFileEventNames ignores no failure: it resolves, with one event
    name for each downloadable content file in the order of the files, exactly
    when getFileEventNameByUrl resolves for every one of them, and it is
    rejected, with the reason of one of the rejected lookups, as soon as one
    is rejected. *)
Theorem getFileEventNames_all_or_nothing (this : object) (module : WSModule) :
  let lookups :=
    (λ content, getFileEventNameByUrl mmFilepool (getId mmSite) (fileurl content))
    <$> filter (λ content, call_isFileDownloadable this content) (contents module) in
  (∀ names,
    getFileEventNames mmSite mmFilepool this module = Resolved names
    ↔ lookups = Resolved <$> names) ∧
  (∀ reason,
    getFileEventNames mmSite mmFilepool this module = Rejected reason →
    Rejected reason ∈ lookups) ∧
  (∀ reason,
    Rejected reason ∈ lookups →
    ∃ reason', getFileEventNames mmSite mmFilepool this module = Rejected reason').
Proof.
  cbv zeta. rewrite getFileEventNames_q_all. split_and!.
  - intros names. apply q_all_resolved.
  - intros reason. apply q_all_rejected_elem.
  - intros reason Hreason. apply q_all_rejected. eauto.
Qed.

(** X2. When getFileEventNames resolves, the names
    getDownloadingFilesEventNames resolves with, in whatever order its
    promises settle, are among the names of getFileEventNames: a sublist of
    them when the promises settle in the order of the files. *)
Theorem getDownloadingFilesEventNames_among_all (this : object) (module : WSModule)
    (names : list string) :
  getFileEventNames mmSite mmFilepool this module = Resolved names →
  ∃ downloading,
    getDownloadingFilesEventNames mmSite mmFilepool this module = Resolved downloading ∧
    downloading `sublist_of` names ∧
    ∀ r, getDownloadingFilesEventNames_settles mmSite mmFilepool this module r →
      ∃ eventNames, r = Resolved eventNames ∧ eventNames ≡ₚ downloading.
Proof.
  rewrite getFileEventNames_q_all, q_all_resolved. intros Hnames.
  destruct (getDownloadingFilesEventNames_pushed mmSite mmFilepool this module)
    as [Horder Hany].
  eexists. split_and!; [exact Horder| |exact Hany].
  rewrite <- (resolved_values_resolved names), <- Hnames.
  unfold resolved_values. clear Hnames Horder Hany.
  induction (filter (λ content, call_isFileDownloadable this content) (contents module))
    as [|content files IH]; [done|].
  cbn [fmap list_fmap omap list_omap]. unfold pushed_name at 1.
  destruct (is_resolved (isFileDownloadingByUrl mmFilepool (getId mmSite)
                           (fileurl content))).
  - destruct (resolved_value _); [by constructor|done].
  - destruct (resolved_value _); [by constructor|done].
Qed.

(** X3. getDownloadingFilesEventNames never resolves with more names than
    the module has downloadable content files, in whatever order its promises
    settle; for a module without a downloadable content file it resolves with
    the empty list. *)
Theorem getDownloadingFilesEventNames_bound (this : object) (module : WSModule)
    (r : promise (list string)) :
  getDownloadingFilesEventNames_settles mmSite mmFilepool this module r →
  ∃ eventNames,
    r = Resolved eventNames ∧
    (length eventNames
     ≤ length (filter (λ content, call_isFileDownloadable this content) (contents module)))%nat ∧
    (filter (λ content, call_isFileDownloadable this content) (contents module) = [] →
     eventNames = []).
Proof.
  intros Hsettles.
  destruct (getDownloadingFilesEventNames_pushed mmSite mmFilepool this module)
    as [_ Hany].
  destruct (Hany r Hsettles) as (eventNames & -> & Hperm).
  exists eventNames. split_and!; [done| |].
  - rewrite Hperm. apply omap_length_le.
  - intros Hnone. rewrite Hnone in Hperm. by apply Permutation_nil_r in Hperm.
Qed.

(** *** What can be downloaded *)

(** X4. A module of which getContentDownloadableFiles finds a file is
    downloadable, whichever isFileDownloadable the handler has. *)
Theorem isDownloadable_content_files (this : object) (module : WSModule) (courseId : Z) :
  getContentDownloadableFiles this module ≠ [] →
  isDownloadable this module courseId = Resolved true.
Proof.
  rewrite getContentDownloadableFiles_filter. intros Hfiles.
  unfold isDownloadable, q_when. f_equal. apply bool_decide_eq_true.
  destruct (contents module); [done|]. simpl length. lia.
Qed.

Lemma getContentDownloadableFiles_source (this : object) (module : WSModule) :
  get this m_isFileDownloadable = Source →
  getContentDownloadableFiles this module
  = filter (λ content, type content = "file") (contents module).
Proof.
  intros Hsource. rewrite getContentDownloadableFiles_filter.
  apply list_filter_iff. intros content.
  rewrite call_isFileDownloadable_source by done. apply bool_decide_spec.
Qed.

(** *** Download and prefetch: failures *)

Lemma downloadOrPrefetch_rejected (this : object) (module : WSModule) (courseId : Z)
    (prefetch : bool) (dirPath : option string) (reason : string) :
  call_getIntroFiles mmUtil this module courseId = Rejected reason ∨
  (∃ introFiles,
    call_getIntroFiles mmUtil this module courseId = Resolved introFiles ∧
    call_getRevisionAndTimemodified mmFilepool mmUtil this module courseId (Some introFiles)
      = Rejected reason) →
  downloadOrPrefetch mmSite mmFilepool mmUtil this module courseId prefetch dirPath
  = ([], Rejected reason).
Proof.
  unfold downloadOrPrefetch. intros [Hintro|(introFiles & Hintro & Hdata)].
  - by rewrite Hintro.
  - rewrite Hintro. cbn [promise_then_task]. by rewrite Hdata.
Qed.

(** X5. When the handler's getIntroFiles is rejected, or its
    getRevisionAndTimemodified is, downloadOrPrefetch issues no call of the
    pool and is rejected with the same reason, and so are download and
    prefetchContent. *)
Theorem downloadOrPrefetch_no_call_on_failure (this : object) (module : WSModule)
    (courseId : Z) (reason : string) :
  call_getIntroFiles mmUtil this module courseId = Rejected reason ∨
  (∃ introFiles,
    call_getIntroFiles mmUtil this module courseId = Resolved introFiles ∧
    call_getRevisionAndTimemodified mmFilepool mmUtil this module courseId (Some introFiles)
      = Rejected reason) →
  (∀ prefetch dirPath,
    downloadOrPrefetch mmSite mmFilepool mmUtil this module courseId prefetch dirPath
    = ([], Rejected reason)) ∧
  (get this m_downloadOrPrefetch = Source →
    download mmSite mmFilepool mmUtil this module courseId = ([], Rejected reason) ∧
    ∀ single,
      prefetchContent mmSite mmFilepool mmUtil this module courseId single
      = ([], Rejected reason)).
Proof.
  intros Hfailure. split.
  - intros prefetch dirPath. by apply downloadOrPrefetch_rejected.
  - intros Hsource. unfold download, prefetchContent, call_downloadOrPrefetch.
    rewrite Hsource. split; intros; by apply downloadOrPrefetch_rejected.
Qed.

Lemma downloadOrPrefetch_issued (this : object) (module : WSModule) (courseId : Z)
    (prefetch : bool) (dirPath : option string) :
  (∃ reason,
    downloadOrPrefetch mmSite mmFilepool mmUtil this module courseId prefetch dirPath
    = ([], Rejected reason)) ∨
  (∃ calls,
    calls ≠ [] ∧
    downloadOrPrefetch mmSite mmFilepool mmUtil this module courseId prefetch dirPath
    = q_all_issued mmFilepool calls).
Proof.
  destruct (call_getIntroFiles mmUtil this module courseId) as [introFiles|reason] eqn:Hintro.
  - destruct (call_getRevisionAndTimemodified mmFilepool mmUtil this module courseId
                (Some introFiles)) as [data|reason] eqn:Hdata.
    + right. rewrite (downloadOrPrefetch_promises _ _ _ _ _ _ _ _ _ _ Hintro Hdata).
      eexists. split; [|done].
      destruct (truthy_string dirPath); [|done]. by intros [? [=]]%app_eq_nil.
    + left. exists reason. apply downloadOrPrefetch_rejected. eauto.
  - left. exists reason. apply downloadOrPrefetch_rejected. eauto.
Qed.

(** X6. The promise of downloadOrPrefetch is resolved only when it has
    issued at least one call and the pool has resolved every call it issued,
    with one result for each; it is rejected when the pool rejects one of the
    calls it issued. *)
Theorem downloadOrPrefetch_resolved (this : object) (module : WSModule) (courseId : Z)
    (prefetch : bool) (dirPath : option string) :
  let issued :=
    downloadOrPrefetch mmSite mmFilepool mmUtil this module courseId prefetch dirPath in
  (∀ results,
    issued.2 = Resolved results →
    issued.1 ≠ [] ∧
    length results = length issued.1 ∧
    Forall (λ c, settle mmFilepool c = Resolved tt) issued.1) ∧
  (∀ c reason,
    c ∈ issued.1 → settle mmFilepool c = Rejected reason →
    ∃ reason', issued.2 = Rejected reason').
Proof.
  cbv zeta.
  destruct (downloadOrPrefetch_issued this module courseId prefetch dirPath)
    as [[reason ->]|(calls & Hcalls & ->)]; simpl.
  - split; [done|]. intros c reason' Hc. by apply elem_of_nil in Hc.
  - split.
    + intros results Hresults. apply q_all_resolved in Hresults.
      split_and!; [done| |].
      * by rewrite <- (length_fmap (settle mmFilepool) calls), Hresults, length_fmap.
      * apply Forall_forall. intros c Hc.
        apply (list_elem_of_fmap_2 (settle mmFilepool)) in Hc.
        rewrite Hresults in Hc. apply list_elem_of_fmap in Hc as ([] & -> & _). done.
    + intros c reason Hc Hreason. apply q_all_rejected. exists reason.
      rewrite <- Hreason. by apply list_elem_of_fmap_2.
Qed.

(** *** Download and prefetch: what is asked of the pool *)

(** X7. Every call downloadOrPrefetch issues is made under the site, the
    component of the handler and the id of the module, which are those under
    which removeFiles removes, invalidateContent invalidates and
    getDownloadedSize measures. *)
Theorem calls_under_component (this : object) (module : WSModule) (courseId : Z)
    (prefetch : bool) (dirPath : option string) :
  let scope := (getId mmSite, component this, id module) in
  Forall (λ c, call_scope c = scope)
    (downloadOrPrefetch mmSite mmFilepool mmUtil this module courseId prefetch dirPath).1 ∧
  (removeFiles mmSite mmFilepool this module courseId).1
    = [ removeFilesByComponent scope.1.1 scope.1.2 scope.2 ] ∧
  (invalidateContent mmSite mmFilepool this (id module)).1
    = [ invalidateFilesByComponent scope.1.1 scope.1.2 scope.2 ] ∧
  getDownloadedSize mmSite mmFilepool this module courseId
    = getFilesSizeByComponent mmFilepool scope.1.1 scope.1.2 scope.2.
Proof.
  cbv zeta. split_and!; try done.
  destruct (call_getIntroFiles mmUtil this module courseId) as [introFiles|reason] eqn:Hintro;
    [|by rewrite (downloadOrPrefetch_rejected _ _ _ _ _ reason); eauto].
  destruct (call_getRevisionAndTimemodified mmFilepool mmUtil this module courseId
              (Some introFiles)) as [data|reason] eqn:Hdata;
    [|by rewrite (downloadOrPrefetch_rejected _ _ _ _ _ reason); eauto].
  rewrite (downloadOrPrefetch_promises _ _ _ _ _ _ _ _ _ _ Hintro Hdata). simpl.
  destruct (truthy_string dirPath).
  - apply Forall_app. split.
    + unfold calls_by_url. apply Forall_fmap, Forall_forall. intros file _.
      by destruct prefetch.
    + apply Forall_singleton. by destruct prefetch.
  - apply Forall_singleton. by destruct prefetch.
Qed.

(** X8. Whether it downloads or prefetches, and whatever dirPath is, the
    URLs downloadOrPrefetch gives the pool are those of the intro files
    followed by those of the downloadable content files. *)
Theorem downloadOrPrefetch_urls (this : object) (module : WSModule) (courseId : Z)
    (introFiles : list File) (data : Data) :
  call_getIntroFiles mmUtil this module courseId = Resolved introFiles →
  call_getRevisionAndTimemodified mmFilepool mmUtil this module courseId (Some introFiles)
    = Resolved data →
  ∀ prefetch dirPath,
    (downloadOrPrefetch mmSite mmFilepool mmUtil this module courseId prefetch dirPath).1
      ≫= call_urls
    = fileurl <$> (introFiles ++ call_getContentDownloadableFiles this module).
Proof.
  intros Hintro Hdata prefetch dirPath.
  rewrite (downloadOrPrefetch_promises _ _ _ _ _ _ _ _ _ _ Hintro Hdata). simpl.
  destruct (truthy_string dirPath).
  - rewrite bind_app, fmap_app. f_equal.
    + unfold calls_by_url. clear Hintro Hdata.
      induction introFiles as [|file files IH]; [done|].
      rewrite !fmap_cons, bind_cons, IH. by destruct prefetch.
    + destruct prefetch; simpl; by rewrite app_nil_r.
  - destruct prefetch; simpl; by rewrite app_nil_r.
Qed.

(** *** Download and prefetch: handlers of the factory *)

(** X9. A handler made by the factory always issues exactly one call when it
    downloads or prefetches a module, also for a module with no file at all:
    a package of the files extracted from module.description followed by the
    content files of type "file", under the component the factory was given,
    with the revision and timemodified the pool derives from the extracted
    files followed by all of module.contents. *)
Theorem createPrefetchHandler_download (c : string) (module : WSModule) (courseId : Z) :
  let introFiles :=
    match truthy_string (description module) with
    | Some html => extractDownloadableFilesFromHtmlAsFakeFileObjects mmUtil html
    | None => []
    end in
  let files := introFiles ++ filter (λ content, type content = "file") (contents module) in
  let all := introFiles ++ contents module in
  download mmSite mmFilepool mmUtil (createPrefetchHandler c) module courseId
    = q_all_issued mmFilepool
        [ downloadPackage (getId mmSite) files c (id module)
            (getRevisionFromFileList mmFilepool all)
            (getTimemodifiedFromFileList mmFilepool all) None ] ∧
  (∀ single,
    prefetchContent mmSite mmFilepool mmUtil (createPrefetchHandler c) module courseId single
    = q_all_issued mmFilepool
        [ prefetchPackage (getId mmSite) files c (id module)
            (getRevisionFromFileList mmFilepool all)
            (getTimemodifiedFromFileList mmFilepool all) None ]).
Proof.
  cbv zeta.
  pose proof (call_getIntroFiles_source mmUtil (createPrefetchHandler c) module courseId
                eq_refl eq_refl) as Hintro.
  assert (Hdata :
    call_getRevisionAndTimemodified mmFilepool mmUtil (createPrefetchHandler c) module
      courseId (Some match truthy_string (description module) with
                     | Some html => extractDownloadableFilesFromHtmlAsFakeFileObjects mmUtil html
                     | None => []
                     end)
    = Resolved _) by reflexivity.
  unfold download, prefetchContent.
  split; intros;
    change (call_downloadOrPrefetch mmSite mmFilepool mmUtil (createPrefetchHandler c))
      with (downloadOrPrefetch mmSite mmFilepool mmUtil (createPrefetchHandler c));
    rewrite (downloadOrPrefetch_promises _ _ _ _ _ _ _ _ _ _ Hintro Hdata);
    cbn [truthy_string timemod revision];
    change (call_getContentDownloadableFiles (createPrefetchHandler c) module)
      with (getContentDownloadableFiles (createPrefetchHandler c) module);
    by rewrite getContentDownloadableFiles_source.
Qed.

(** X10. For a handler that keeps the template's downloadOrPrefetch and
    getRevisionAndTimemodified, download downloads the files getFiles
    resolves with, as one package under the revision getRevision resolves
    with and the timemodified getTimemodified resolves with. *)
Theorem download_revision (this : object) (module : WSModule) (courseId : Z) (r t : Z) :
  get this m_downloadOrPrefetch = Source →
  get this m_getRevisionAndTimemodified = Source →
  getRevision mmFilepool mmUtil this module courseId = Resolved r →
  getTimemodified mmFilepool mmUtil this module courseId = Resolved t →
  ∃ files,
    getFiles mmUtil this module courseId = Resolved files ∧
    download mmSite mmFilepool mmUtil this module courseId
    = q_all_issued mmFilepool
        [ downloadPackage (getId mmSite) files (component this) (id module) r t None ].
Proof.
  intros Hdownload Hsource.
  unfold getRevision, getTimemodified, call_getRevisionAndTimemodified.
  rewrite Hsource. unfold getRevisionAndTimemodified.
  destruct (call_getIntroFiles mmUtil this module courseId) as [introFiles|reason] eqn:Hintro;
    [|done].
  simpl. intros [= <-] [= <-].
  exists (introFiles ++ call_getContentDownloadableFiles this module). split.
  - unfold getFiles. by rewrite Hintro.
  - assert (Hdata :
      call_getRevisionAndTimemodified mmFilepool mmUtil this module courseId
        (Some introFiles)
      = Resolved
          {| timemod := getTimemodifiedFromFileList mmFilepool (introFiles ++ contents module);
             revision := getRevisionFromFileList mmFilepool (introFiles ++ contents module) |}).
    { unfold call_getRevisionAndTimemodified. by rewrite Hsource. }
    unfold download, call_downloadOrPrefetch. rewrite Hdownload.
    by rewrite (downloadOrPrefetch_promises _ _ _ _ _ _ _ _ _ _ Hintro Hdata).
Qed.

(** X11. The size getDownloadSize resolves with, for a handler made by the
    factory, is the size $mmUtil gives for the files extracted from
    module.description followed by the content files of type "file": entries
    of other types do not count, and the component does not matter. *)
Theorem createPrefetchHandler_getDownloadSize (c : string) (module : WSModule)
    (courseId : Z) :
  let introFiles :=
    match truthy_string (description module) with
    | Some html => extractDownloadableFilesFromHtmlAsFakeFileObjects mmUtil html
    | None => []
    end in
  getDownloadSize mmUtil (createPrefetchHandler c) module courseId
    = Resolved (sumFileSizes mmUtil
        (introFiles ++ filter (λ content, type content = "file") (contents module))) ∧
  getDownloadSize mmUtil modulePrefetchHandler module courseId
    = getDownloadSize mmUtil (createPrefetchHandler c) module courseId.
Proof.
  cbv zeta. split; [|reflexivity].
  unfold getDownloadSize.
  change (call_getFiles mmUtil (createPrefetchHandler c))
    with (getFiles mmUtil (createPrefetchHandler c)).
  unfold getFiles.
  rewrite (call_getIntroFiles_source mmUtil (createPrefetchHandler c)) by done.
  cbn [promise_then].
  change (call_getContentDownloadableFiles (createPrefetchHandler c) module)
    with (getContentDownloadableFiles (createPrefetchHandler c) module).
  by rewrite getContentDownloadableFiles_source.
Qed.

(** *** Functions replaced by a caller *)

(** X12. A handler whose isFileDownloadable a caller has replaced uses the
    new predicate wherever the template's functions select content files: in
    getContentDownloadableFiles, in getFiles, in the package of download and
    in getFileEventNames. The handler the factory returns for the same
    component keeps the template's. *)
Theorem isFileDownloadable_replaced (c : string) (p : File → bool) (module : WSModule)
    (courseId : Z) :
  let child :=
    set_method (createPrefetchHandler c) m_isFileDownloadable
      (Closure (m := m_isFileDownloadable) p) in
  let introFiles :=
    match truthy_string (description module) with
    | Some html => extractDownloadableFilesFromHtmlAsFakeFileObjects mmUtil html
    | None => []
    end in
  let contentFiles := filter (λ content, p content) (contents module) in
  let all := introFiles ++ contents module in
  getContentDownloadableFiles child module = contentFiles ∧
  getFiles mmUtil child module courseId = Resolved (introFiles ++ contentFiles) ∧
  (download mmSite mmFilepool mmUtil child module courseId).1
    = [ downloadPackage (getId mmSite) (introFiles ++ contentFiles) c (id module)
          (getRevisionFromFileList mmFilepool all)
          (getTimemodifiedFromFileList mmFilepool all) None ] ∧
  getFileEventNames mmSite mmFilepool child module
    = q_all ((λ content, getFileEventNameByUrl mmFilepool (getId mmSite) (fileurl content))
             <$> contentFiles) ∧
  getContentDownloadableFiles (createPrefetchHandler c) module
    = filter (λ content, type content = "file") (contents module).
Proof.
  cbv zeta.
  set (child := set_method (createPrefetchHandler c) m_isFileDownloadable
                  (Closure (m := m_isFileDownloadable) p)).
  assert (Hcontent : getContentDownloadableFiles child module
                     = filter (λ content, p content) (contents module))
    by apply getContentDownloadableFiles_filter.
  pose proof (call_getIntroFiles_source mmUtil child module courseId eq_refl eq_refl)
    as Hintro.
  split_and!.
  - done.
  - unfold getFiles. rewrite Hintro. cbn [promise_then].
    change (call_getContentDownloadableFiles child module)
      with (getContentDownloadableFiles child module).
    by rewrite Hcontent.
  - unfold download.
    change (call_downloadOrPrefetch mmSite mmFilepool mmUtil child)
      with (downloadOrPrefetch mmSite mmFilepool mmUtil child).
    erewrite (downloadOrPrefetch_promises _ _ _ _ _ _ _ _ _ _ Hintro); [|reflexivity].
    cbn [truthy_string timemod revision q_all_issued fst].
    change (call_getContentDownloadableFiles child module)
      with (getContentDownloadableFiles child module).
    by rewrite Hcontent.
  - apply getFileEventNames_q_all.
  - by apply getContentDownloadableFiles_source.
Qed.

(** X13. A handler whose getIntroFiles a caller has replaced takes its
    intro files from the new function and no longer from module.description:
    in getFiles, in getDownloadSize, in the revision and timemodified, and in
    the package of download. *)
Theorem getIntroFiles_replaced (c : string) (g : WSModule → Z → promise (list File))
    (module : WSModule) (courseId : Z) (introFiles : list File) :
  g module courseId = Resolved introFiles →
  let child :=
    set_method (createPrefetchHandler c) m_getIntroFiles (Closure (m := m_getIntroFiles) g) in
  let files := introFiles ++ filter (λ content, type content = "file") (contents module) in
  let all := introFiles ++ contents module in
  getFiles mmUtil child module courseId = Resolved files ∧
  getDownloadSize mmUtil child module courseId = Resolved (sumFileSizes mmUtil files) ∧
  getRevision mmFilepool mmUtil child module courseId
    = Resolved (getRevisionFromFileList mmFilepool all) ∧
  getTimemodified mmFilepool mmUtil child module courseId
    = Resolved (getTimemodifiedFromFileList mmFilepool all) ∧
  (download mmSite mmFilepool mmUtil child module courseId).1
    = [ downloadPackage (getId mmSite) files c (id module)
          (getRevisionFromFileList mmFilepool all)
          (getTimemodifiedFromFileList mmFilepool all) None ].
Proof.
  intros Hg. cbv zeta.
  set (child := set_method (createPrefetchHandler c) m_getIntroFiles
                  (Closure (m := m_getIntroFiles) g)).
  assert (Hintro : call_getIntroFiles mmUtil child module courseId = Resolved introFiles)
    by exact Hg.
  assert (Hcontent : call_getContentDownloadableFiles child module
                     = filter (λ content, type content = "file") (contents module))
    by by apply getContentDownloadableFiles_source.
  assert (Hfiles : getFiles mmUtil child module courseId
                   = Resolved (introFiles
                               ++ filter (λ content, type content = "file") (contents module))).
  { unfold getFiles. rewrite Hintro. cbn [promise_then]. by rewrite Hcontent. }
  split_and!.
  - done.
  - unfold getDownloadSize.
    change (call_getFiles mmUtil child) with (getFiles mmUtil child).
    by rewrite Hfiles.
  - unfold getRevision.
    change (call_getRevisionAndTimemodified mmFilepool mmUtil child)
      with (getRevisionAndTimemodified mmFilepool mmUtil child).
    unfold getRevisionAndTimemodified. by rewrite Hintro.
  - unfold getTimemodified.
    change (call_getRevisionAndTimemodified mmFilepool mmUtil child)
      with (getRevisionAndTimemodified mmFilepool mmUtil child).
    unfold getRevisionAndTimemodified. by rewrite Hintro.
  - unfold download.
    change (call_downloadOrPrefetch mmSite mmFilepool mmUtil child)
      with (downloadOrPrefetch mmSite mmFilepool mmUtil child).
    erewrite (downloadOrPrefetch_promises _ _ _ _ _ _ _ _ _ _ Hintro); [|reflexivity].
    cbn [truthy_string timemod revision q_all_issued fst]. by rewrite Hcontent.
Qed.

End FurtherProperties.

(** ** The properties on the scenario *)

Import Scenario.

(** The scenario of the specification: the file is the only content file, the
    module is downloadable, and both entries count for the revision (the sum,
    150) and timemodified (the maximum, 100). *)
Example module7_scenario :
  getContentDownloadableFiles modulePrefetchHandler module7 = [ file "a" 100 ] ∧
  isDownloadable modulePrefetchHandler module7 1 = Resolved true ∧
  getRevision pool util modulePrefetchHandler module7 1 = Resolved 150 ∧
  getTimemodified pool util modulePrefetchHandler module7 1 = Resolved 100.
Proof. split_and!; reflexivity. Qed.

Lemma getRevisionAndTimemodified_spec_witness :
  getRevisionAndTimemodified pool util modulePrefetchHandler module7 1 None
  = Resolved {| timemod := 100; revision := 150 |}.
Proof.
  exact (getRevisionAndTimemodified_spec pool util modulePrefetchHandler module7 1
           None [] eq_refl).
Defined.

Lemma getRevisionAndTimemodified_introFiles_witness :
  getRevisionAndTimemodified pool util modulePrefetchHandler described 1 (Some [ intro_a ])
  = getRevisionAndTimemodified pool util modulePrefetchHandler described 1 None.
Proof.
  exact (getRevisionAndTimemodified_introFiles pool util modulePrefetchHandler described 1
           [ intro_a ] eq_refl).
Defined.

(** The file at "a" is both an intro file and a content file: it is listed
    twice. *)
Lemma getFiles_concat_witness :
  getFiles util modulePrefetchHandler described 1 = Resolved [ intro_a; file "a" 100 ].
Proof.
  exact (proj1 (getFiles_concat util modulePrefetchHandler described 1 [ intro_a ] eq_refl)).
Defined.

(** One of three downloadable files is not being downloaded: the event names
    of the other two. *)
Lemma getDownloadingFilesEventNames_ignores_failed_checks_witness :
  getDownloadingFilesEventNames site pool modulePrefetchHandler three_files
  = Resolved [ "filepool:a"; "filepool:d" ].
Proof.
  exact (proj1 (getDownloadingFilesEventNames_ignores_failed_checks site pool
                  modulePrefetchHandler three_files)).
Defined.

(** The file at "c" is being downloaded and has no event name: the names of
    the files at "a" and "d". *)
Lemma getDownloadingFilesEventNames_ignores_failed_names_witness :
  getDownloadingFilesEventNames site pool modulePrefetchHandler unnamed_file
    = Resolved [ "filepool:a"; "filepool:d" ] ∧
  (∀ r, getDownloadingFilesEventNames_settles site pool modulePrefetchHandler unnamed_file r →
    ∃ eventNames, r = Resolved eventNames ∧ eventNames ≡ₚ [ "filepool:a"; "filepool:d" ]) ∧
  getDownloadingFilesEventNames site pool modulePrefetchHandler
    {| id := 10; contents := [ file "a" 1; file "d" 3 ]; description := None |}
    = Resolved [ "filepool:a"; "filepool:d" ].
Proof.
  pose proof (getDownloadingFilesEventNames_ignores_failed_names site pool
                modulePrefetchHandler unnamed_file [ file "a" 1 ] (file "c" 2)
                [ file "d" 3 ] "no event name" eq_refl eq_refl eq_refl eq_refl)
    as (_ & Hnames & _ & Hany & Hothers & _).
  split; [exact Hnames|]. split; [exact Hany|exact Hothers].
Defined.

Example unnamed_file_event_names :
  getDownloadingFilesEventNames site pool modulePrefetchHandler unnamed_file
  = Resolved [ "filepool:a"; "filepool:d" ].
Proof. reflexivity. Qed.

Lemma download_calls_witness :
  download site pool util modulePrefetchHandler described 1
  = q_all_issued pool
      [ downloadPackage "site1" [ intro_a; file "a" 100 ] "core_res" 8 100 100 None ].
Proof.
  exact (proj1 (download_calls site pool util modulePrefetchHandler described 1
                  [ intro_a ] {| timemod := 100; revision := 100 |}
                  eq_refl eq_refl eq_refl)).
Defined.

(** C3, as the claim states it, fails: for a module with an intro file,
    download issues one call, downloadPackage for the intro file and the
    content file together, and not downloadUrl for the intro file followed by
    downloadPackage for the content file; prefetchContent likewise issues
    prefetchPackage alone. *)
Lemma download_issues_no_call_per_intro_file :
  getIntroFiles util modulePrefetchHandler described 1 = Resolved [ intro_a ] ∧
  getContentDownloadableFiles modulePrefetchHandler described = [ file "a" 100 ] ∧
  (download site pool util modulePrefetchHandler described 1).1
    = [ downloadPackage "site1" [ intro_a; file "a" 100 ] "core_res" 8 100 100 None ] ∧
  (download site pool util modulePrefetchHandler described 1).1
    ≠ calls_by_url false "site1" "core_res" 8 [ intro_a ]
      ++ [ downloadPackage "site1" [ file "a" 100 ] "core_res" 8 100 100 None ] ∧
  (prefetchContent site pool util modulePrefetchHandler described 1 true).1
    ≠ calls_by_url true "site1" "core_res" 8 [ intro_a ]
      ++ [ prefetchPackage "site1" [ file "a" 100 ] "core_res" 8 100 100 None ].
Proof. split_and!; [reflexivity | reflexivity | reflexivity | discriminate | discriminate]. Qed.

(** The handler of the book module. *)
Lemma createPrefetchHandler_spec_witness :
  component (createPrefetchHandler "mod_book") = "mod_book" ∧
  ∀ m, get (createPrefetchHandler "mod_book") m = get modulePrefetchHandler m.
Proof.
  split.
  - exact (proj1 (createPrefetchHandler_spec site pool util "mod_book")).
  - exact (proj1 (proj2 (createPrefetchHandler_spec site pool util "mod_book"))).
Defined.

(** The handler of the book module asks the pool under its own component. *)
Example mod_book_removeFiles :
  removeFiles site pool (createPrefetchHandler "mod_book") module7 1
  = ([ removeFilesByComponent "site1" "mod_book" 7 ], Resolved tt).
Proof. reflexivity. Qed.

(** *** Further properties on the scenario *)

(** Every file of the module has an event name; the file at "b" is not being
    downloaded. *)
Lemma getDownloadingFilesEventNames_among_all_witness :
  ∃ downloading,
    getDownloadingFilesEventNames site pool modulePrefetchHandler three_files
    = Resolved downloading ∧
    downloading `sublist_of` [ "filepool:a"; "filepool:b"; "filepool:d" ] ∧
    ∀ r, getDownloadingFilesEventNames_settles site pool modulePrefetchHandler three_files r →
      ∃ eventNames, r = Resolved eventNames ∧ eventNames ≡ₚ downloading.
Proof.
  exact (getDownloadingFilesEventNames_among_all site pool modulePrefetchHandler three_files
           [ "filepool:a"; "filepool:b"; "filepool:d" ] eq_refl).
Defined.

Lemma getDownloadingFilesEventNames_bound_witness :
  ∃ eventNames,
    getDownloadingFilesEventNames site pool modulePrefetchHandler three_files
    = Resolved eventNames ∧
    (length eventNames
     ≤ length (filter (λ content, call_isFileDownloadable modulePrefetchHandler content)
                 (contents three_files)))%nat ∧
    (filter (λ content, call_isFileDownloadable modulePrefetchHandler content)
       (contents three_files) = [] →
     eventNames = []).
Proof.
  apply (getDownloadingFilesEventNames_bound site pool modulePrefetchHandler three_files).
  apply settles_in_order.
Defined.

Lemma isDownloadable_content_files_witness :
  isDownloadable modulePrefetchHandler module7 1 = Resolved true.
Proof.
  apply (isDownloadable_content_files modulePrefetchHandler module7 1).
  intros Hnone. vm_compute in Hnone. discriminate Hnone.
Defined.

(** The handler whose getIntroFiles fails issues no call. *)
Lemma downloadOrPrefetch_no_call_on_failure_witness :
  download site pool util offline_handler module7 1 = ([], Rejected "offline").
Proof.
  exact (proj1 (proj2 (downloadOrPrefetch_no_call_on_failure site pool util offline_handler
                         module7 1 "offline" (or_introl eq_refl)) eq_refl)).
Defined.

(** With a directory the intro file and the content file are asked for in two
    calls, by the same URLs. *)
Lemma downloadOrPrefetch_urls_witness :
  (downloadOrPrefetch site pool util modulePrefetchHandler described 1 false (Some "dir")).1
    ≫= call_urls
  = [ "a"; "a" ].
Proof.
  exact (downloadOrPrefetch_urls site pool util modulePrefetchHandler described 1
           [ intro_a ] {| timemod := 100; revision := 100 |} eq_refl eq_refl
           false (Some "dir")).
Defined.

Lemma download_revision_witness :
  ∃ files,
    getFiles util modulePrefetchHandler described 1 = Resolved files ∧
    download site pool util modulePrefetchHandler described 1
    = q_all_issued pool [ downloadPackage "site1" files "core_res" 8 100 100 None ].
Proof.
  exact (download_revision site pool util modulePrefetchHandler described 1 100 100
           eq_refl eq_refl eq_refl eq_refl).
Defined.

(** The handler that accepts every URL but "b" leaves the second of three
    files out. *)
Lemma isFileDownloadable_replaced_witness :
  getContentDownloadableFiles url_handler three_files = [ file "a" 1; file "d" 3 ].
Proof.
  exact (proj1 (isFileDownloadable_replaced site pool util "mod_url"
                  (λ content, negb (bool_decide (fileurl content = "b")))
                  three_files 1)).
Defined.

(** The handler of the book takes its intro file from the book. *)
Lemma getIntroFiles_replaced_witness :
  getFiles util book_handler module7 1 = Resolved [ file "intro.png" 5; file "a" 100 ].
Proof.
  exact (proj1 (getIntroFiles_replaced site pool util "mod_book"
                  (λ _ _, Resolved [ file "intro.png" 5 ]) module7 1
                  [ file "intro.png" 5 ] eq_refl)).
Defined.

(** A module with no file at all: download still issues its one call. *)
Lemma createPrefetchHandler_download_witness :
  download site pool util (createPrefetchHandler "mod_label")
    {| id := 3; contents := []; description := None |} 1
  = ([ downloadPackage "site1" [] "mod_label" 3 0 0 None ], Resolved [ tt ]).
Proof.
  exact (proj1 (createPrefetchHandler_download site pool util "mod_label"
                  {| id := 3; contents := []; description := None |} 1)).
Defined.
